(** * The conversation session of the Medical AI chat client

    A shallow embedding of [frontend/src/App.tsx]: the component state kept
    by the [useState] hooks, the event handlers that update it, and the
    request the component sends to [POST /api/chat].

    React runs one handler at a time, each against the state of the last
    render, so a handler is a function from the state it closes over to the
    next state.  What reaches the component from outside (a user gesture, a
    finished file read, a speech callback, the settlement of a request) is an
    [Event]; [step] dispatches it to its handler. *)

From Stdlib Require Import String Ascii List ZArith NArith Lia Bool.
Import ListNotations.
Open Scope Z_scope.

(** ** The JavaScript values the component computes with *)

Module JS.

(** A JavaScript string is a sequence of UTF-16 code units. *)
Definition jsstring := list N.

(** An ASCII literal as a JavaScript string. *)
Definition str (s : string) : jsstring :=
  map N_of_ascii (list_ascii_of_string s).

Definition LF : jsstring := [10%N].

(** The code units [String.prototype.trim] strips: ECMAScript's WhiteSpace
    and LineTerminator productions. *)
Definition isWhiteSpace (c : N) : bool :=
  ((9 <=? c) && (c <=? 13) || (c =? 32) || (c =? 160) || (c =? 5760)
   || (8192 <=? c) && (c <=? 8202) || (c =? 8232) || (c =? 8233)
   || (c =? 8239) || (c =? 8287) || (c =? 12288) || (c =? 65279))%N.

Fixpoint trimStart (s : jsstring) : jsstring :=
  match s with
  | c :: s' => if isWhiteSpace c then trimStart s' else s
  | [] => []
  end.

Definition trimEnd (s : jsstring) : jsstring := rev (trimStart (rev s)).

Definition trim (s : jsstring) : jsstring := trimEnd (trimStart s).

(** ToBoolean on a string: only the empty string is falsy. *)
Definition truthy (s : jsstring) : bool :=
  match s with
  | [] => false
  | _ :: _ => true
  end.

(** [a || b] on strings. *)
Definition or_else (a b : jsstring) : jsstring :=
  if truthy a then a else b.

(** [o || b] where [o] is a string or [undefined]. *)
Definition or_default (o : option jsstring) (b : jsstring) : jsstring :=
  match o with
  | Some a => or_else a b
  | None => b
  end.

(** [o || undefined] where [o] is a string or [null]. *)
Definition or_undefined (o : option jsstring) : option jsstring :=
  match o with
  | Some a => if truthy a then Some a else None
  | None => None
  end.

(** [Array.prototype.slice(start)]: a negative [start] counts from the end,
    and both ends are clamped to the array. *)
Definition Array_slice {A : Type} (start : Z) (l : list A) : list A :=
  let len := Z.of_nat (length l) in
  let k := if start <? 0 then Z.max (len + start) 0 else Z.min start len in
  skipn (Z.to_nat k) l.

(** [n] in decimal on exactly [width] digits. *)
Fixpoint digits (width : nat) (n : Z) : jsstring :=
  match width with
  | O => []
  | S w => digits w (n / 10) ++ [Z.to_N (48 + n mod 10)]
  end.

(** Year, month and day of the month of a day number counted from
    1970-01-01, in the proleptic Gregorian calendar. *)
Definition YearMonthDay (day : Z) : Z * Z * Z :=
  let z := day + 719468 in
  let era := z / 146097 in
  let doe := z mod 146097 in
  let yoe := (doe - doe / 1460 + doe / 36524 - doe / 146096) / 365 in
  let doy := doe - (365 * yoe + yoe / 4 - yoe / 100) in
  let mp := (5 * doy + 2) / 153 in
  let d := doy - (153 * mp + 2) / 5 + 1 in
  let m := if mp <? 10 then mp + 3 else mp - 9 in
  let y := yoe + era * 400 + (if m <=? 2 then 1 else 0) in
  (y, m, d).

(** [Date.prototype.toISOString] on the time value [t] (milliseconds since
    the epoch, UTC) of a valid date, which is what [new Date()] builds:
    [YYYY-MM-DDTHH:mm:ss.sssZ], the year on six signed digits outside
    0..9999. *)
Definition toISOString (t : Z) : jsstring :=
  let '(y, m, d) := YearMonthDay (t / 86400000) in
  let ms := t mod 86400000 in
  let year :=
    if (0 <=? y) && (y <=? 9999) then digits 4 y
    else str (if y <? 0 then "-" else "+") ++ digits 6 (Z.abs y) in
  year ++ str "-" ++ digits 2 m ++ str "-" ++ digits 2 d ++ str "T"
    ++ digits 2 (ms / 3600000) ++ str ":"
    ++ digits 2 (ms / 60000 mod 60) ++ str ":"
    ++ digits 2 (ms / 1000 mod 60) ++ str "."
    ++ digits 3 (ms mod 1000) ++ str "Z".

End JS.

Import JS.

(** ** Types *)

Inductive Role : Type := user | assistant.

(** [interface Message]; [timestamp] is the time value of the [Date]. *)
Module Message.
Record t : Type := mk {
  id : jsstring;
  role : Role;
  content : jsstring;
  timestamp : Z;
  agent : option jsstring;
  image : option jsstring;
  requiresValidation : option bool
}.
End Message.

(** [interface ApiResponse], the body [response.json()] is read as; [data]
    is never looked at and is left out. *)
Module ApiResponse.
Record t : Type := mk {
  success : bool;
  response : jsstring;
  agent : option jsstring;
  error : option jsstring;
  requires_validation : option bool
}.
End ApiResponse.

(** A [File] picked in the file input, with what
    [FileReader.readAsDataURL] leaves in [reader.result] once it is done
    with the file: the data URL, or [null] when the read fails. *)
Module File.
Record t : Type := mk {
  name : jsstring;
  dataURL : option jsstring
}.
End File.

(** One element of the [history] array of the request body. *)
Module HistoryEntry.
Record t : Type := mk {
  role : Role;
  content : jsstring;
  timestamp : jsstring;
  agent : option jsstring
}.
End HistoryEntry.

(** The object handed to [JSON.stringify] as the body of the request. *)
Module ChatRequest.
Record t : Type := mk {
  message : jsstring;
  history : list HistoryEntry.t;
  image : option jsstring;
  agent_type : jsstring
}.
End ChatRequest.

(** How the awaited request ends: [fetch] rejects, [response.json()]
    rejects, or a body arrives. *)
Inductive FetchOutcome : Type :=
  | Rejected
  | Unparsable
  | Body (data : ApiResponse.t).

(** A [SpeechRecognitionEvent]: [results], each a list of alternatives,
    each alternative given by its [transcript]. *)
Definition SpeechRecognitionEvent := list (list jsstring).

(** ** Constants *)

Module Agent.
Record t : Type := mk {
  id : jsstring;
  name : jsstring;
  description : jsstring
}.
End Agent.

(** [AGENTS] (the icons are left out). *)
Definition AGENTS : list Agent.t :=
  [ Agent.mk (str "auto") (str "Auto-Select")
      (str "Automatically selects the best agent");
    Agent.mk (str "medical-chat") (str "Medical Chat")
      (str "General medical conversations");
    Agent.mk (str "prescription") (str "Prescription Parser")
      (str "Parse prescription images");
    Agent.mk (str "multi-agent") (str "Advanced Analysis")
      (str "RAG, Web Search & Image Analysis") ].

(** The two code units that open the error literals, as App.tsx stores
    them. *)
Definition mark : jsstring := [226%N; 338%N].

(** The content of the seeded turn, as App.tsx stores it. *)
Definition welcomeContent : jsstring :=
  str "# Welcome to Integrated Medical AI System" ++ LF ++ LF
  ++ str "I combine three powerful AI systems to assist you:" ++ LF ++ LF
  ++ str "**" ++ [240; 376; 8217; 172]%N
  ++ str " Medical Conversation Agent** - Answer medical questions with empathy and accuracy"
  ++ LF ++ LF
  ++ str "**" ++ [240; 376; 8217; 352]%N
  ++ str " Prescription Parser** - Extract medication details from prescription images"
  ++ LF ++ LF
  ++ str "**" ++ [240; 376; 8221; 172]%N
  ++ str " Advanced Multi-Agent System** - Medical research, web search, and image analysis"
  ++ LF ++ LF ++ str "---" ++ LF ++ LF
  ++ str "**How can I help you today?**".

(** The turn [useState] seeds [messages] with; [t0] is [new Date()] at the
    first render. *)
Definition welcome (t0 : Z) : Message.t :=
  {| Message.id := str "1";
     Message.role := assistant;
     Message.content := welcomeContent;
     Message.timestamp := t0;
     Message.agent := Some (str "System");
     Message.image := None;
     Message.requiresValidation := None |}.

(** ** Component state *)

(** The eight [useState] cells, the value of the file input behind
    [fileInputRef], and what the component has handed to the platform and
    is waiting on: the [FileReader]s whose [onloadend] has not fired
    ([readers], oldest first), the bodies given to [fetch] ([outbox],
    oldest first) and the number of those not settled yet ([inflight]). *)
Record State : Type := mkState {
  messages : list Message.t;
  inputText : jsstring;
  selectedAgent : jsstring;
  isLoading : bool;
  selectedImage : option File.t;
  imagePreview : option jsstring;
  isSidebarOpen : bool;
  isListening : bool;
  fileInputValue : jsstring;
  readers : list File.t;
  outbox : list ChatRequest.t;
  inflight : nat
}.

Definition init (t0 : Z) : State :=
  {| messages := [welcome t0];
     inputText := [];
     selectedAgent := str "auto";
     isLoading := false;
     selectedImage := None;
     imagePreview := None;
     isSidebarOpen := false;
     isListening := false;
     fileInputValue := [];
     readers := [];
     outbox := [];
     inflight := O |}.

Definition setMessages (f : list Message.t -> list Message.t) (s : State) : State :=
  mkState (f (messages s)) (inputText s) (selectedAgent s) (isLoading s)
    (selectedImage s) (imagePreview s) (isSidebarOpen s) (isListening s)
    (fileInputValue s) (readers s) (outbox s) (inflight s).

Definition setInputText (v : jsstring) (s : State) : State :=
  mkState (messages s) v (selectedAgent s) (isLoading s)
    (selectedImage s) (imagePreview s) (isSidebarOpen s) (isListening s)
    (fileInputValue s) (readers s) (outbox s) (inflight s).

Definition setSelectedAgent (v : jsstring) (s : State) : State :=
  mkState (messages s) (inputText s) v (isLoading s)
    (selectedImage s) (imagePreview s) (isSidebarOpen s) (isListening s)
    (fileInputValue s) (readers s) (outbox s) (inflight s).

Definition setIsLoading (v : bool) (s : State) : State :=
  mkState (messages s) (inputText s) (selectedAgent s) v
    (selectedImage s) (imagePreview s) (isSidebarOpen s) (isListening s)
    (fileInputValue s) (readers s) (outbox s) (inflight s).

Definition setSelectedImage (v : option File.t) (s : State) : State :=
  mkState (messages s) (inputText s) (selectedAgent s) (isLoading s)
    v (imagePreview s) (isSidebarOpen s) (isListening s)
    (fileInputValue s) (readers s) (outbox s) (inflight s).

Definition setImagePreview (v : option jsstring) (s : State) : State :=
  mkState (messages s) (inputText s) (selectedAgent s) (isLoading s)
    (selectedImage s) v (isSidebarOpen s) (isListening s)
    (fileInputValue s) (readers s) (outbox s) (inflight s).

Definition setIsSidebarOpen (v : bool) (s : State) : State :=
  mkState (messages s) (inputText s) (selectedAgent s) (isLoading s)
    (selectedImage s) (imagePreview s) v (isListening s)
    (fileInputValue s) (readers s) (outbox s) (inflight s).

Definition setIsListening (v : bool) (s : State) : State :=
  mkState (messages s) (inputText s) (selectedAgent s) (isLoading s)
    (selectedImage s) (imagePreview s) (isSidebarOpen s) v
    (fileInputValue s) (readers s) (outbox s) (inflight s).

(** [fileInputRef.current.value = v]. *)
Definition setFileInputValue (v : jsstring) (s : State) : State :=
  mkState (messages s) (inputText s) (selectedAgent s) (isLoading s)
    (selectedImage s) (imagePreview s) (isSidebarOpen s) (isListening s)
    v (readers s) (outbox s) (inflight s).

Definition setReaders (v : list File.t) (s : State) : State :=
  mkState (messages s) (inputText s) (selectedAgent s) (isLoading s)
    (selectedImage s) (imagePreview s) (isSidebarOpen s) (isListening s)
    (fileInputValue s) v (outbox s) (inflight s).

Definition setInflight (v : nat) (s : State) : State :=
  mkState (messages s) (inputText s) (selectedAgent s) (isLoading s)
    (selectedImage s) (imagePreview s) (isSidebarOpen s) (isListening s)
    (fileInputValue s) (readers s) (outbox s) v.

(** [fetch(url, {body})]: the request leaves and is awaited. *)
Definition fetch (body : ChatRequest.t) (s : State) : State :=
  mkState (messages s) (inputText s) (selectedAgent s) (isLoading s)
    (selectedImage s) (imagePreview s) (isSidebarOpen s) (isListening s)
    (fileInputValue s) (readers s) (outbox s ++ [body]) (S (inflight s)).

(** ** Handlers *)

(** [handleImageSelect]; [e.target.files?.[0]] is the head of [files].  The
    reader it creates joins [readers] until its [onloadend] fires. *)
Definition handleImageSelect (files : list File.t) (s : State) : State :=
  match files with
  | file :: _ =>
      let s1 := setSelectedImage (Some file) s in
      setReaders (readers s1 ++ [file]) s1
  | [] => s
  end.

Definition remove_nth {A : Type} (n : nat) (l : list A) : list A :=
  firstn n l ++ skipn (S n) l.

(** [reader.onloadend] of the [n]-th reader still reading. *)
Definition onloadend (n : nat) (s : State) : State :=
  match nth_error (readers s) n with
  | Some file =>
      setImagePreview (File.dataURL file)
        (setReaders (remove_nth n (readers s)) s)
  | None => s
  end.

(** [removeImage]; the file input is always mounted, so
    [fileInputRef.current] is there. *)
Definition removeImage (s : State) : State :=
  let s1 := setSelectedImage None s in
  let s2 := setImagePreview None s1 in
  setFileInputValue [] s2.

(** [toggleVoiceInput]; [stop()] and [start()] go to the platform's
    recognizer, whose answers come back through [onresult], [onerror] and
    [onend].  [busy] tells whether the recognizer still has a capture that
    has not ended when [start()] is called: [start()] then throws and the
    [setIsListening(true)] after it is not reached.  [stop()] does not
    throw, and with no recognizer at all ([recognitionRef.current] null)
    neither call is made. *)
Definition toggleVoiceInput (busy : bool) (s : State) : State :=
  if isListening s then setIsListening false s
  else if busy then s
  else setIsListening true s.

(** [recognitionRef.current.onresult]; reading [event.results[0][0]] off an
    event that has none throws before any cell is written. *)
Definition onresult (event : SpeechRecognitionEvent) (s : State) : State :=
  match event with
  | (transcript :: _) :: _ =>
      let s1 := setInputText transcript s in
      setIsListening false s1
  | _ => s
  end.

Definition onerror (s : State) : State := setIsListening false s.

Definition onend (s : State) : State := setIsListening false s.

(** The guard on the first line of [handleSendMessage]:
    [(!inputText.trim() && !selectedImage) || isLoading]. *)
Definition blocked (s : State) : bool :=
  (negb (truthy (trim (inputText s)))
   && negb (match selectedImage s with Some _ => true | None => false end))
  || isLoading s.

(** The element [history] holds for the turn [m]. *)
Definition historyEntry (m : Message.t) : HistoryEntry.t :=
  {| HistoryEntry.role := Message.role m;
     HistoryEntry.content := Message.content m;
     HistoryEntry.timestamp := toISOString (Message.timestamp m);
     HistoryEntry.agent := Message.agent m |}.

(** [userMessage], from the state the handler closes over; [uuid] is what
    [uuidv4()] returns and [now] what [new Date()] reads. *)
Definition userMessage (uuid : jsstring) (now : Z) (s : State) : Message.t :=
  {| Message.id := uuid;
     Message.role := user;
     Message.content := or_else (trim (inputText s)) (str "Analyze this image");
     Message.timestamp := now;
     Message.agent := None;
     Message.image := or_undefined (imagePreview s);
     Message.requiresValidation := None |}.

(** The body of the request, from the state the handler closes over:
    [messages] is the log of the last render, without [userMessage]. *)
Definition requestBody (uuid : jsstring) (now : Z) (s : State) : ChatRequest.t :=
  {| ChatRequest.message := Message.content (userMessage uuid now s);
     ChatRequest.history := map historyEntry (Array_slice (-10) (messages s));
     ChatRequest.image := imagePreview s;
     ChatRequest.agent_type := selectedAgent s |}.

(** [handleSendMessage] up to its [await]. *)
Definition handleSendMessage (uuid : jsstring) (now : Z) (s : State) : State :=
  if blocked s then s
  else
    let s1 := setMessages (fun prev => prev ++ [userMessage uuid now s]) s in
    let s2 := setInputText [] s1 in
    let s3 := removeImage s2 in
    let s4 := setIsLoading true s3 in
    fetch (requestBody uuid now s) s4.

Definition assistantMessage (uuid : jsstring) (now : Z) (data : ApiResponse.t)
  : Message.t :=
  {| Message.id := uuid;
     Message.role := assistant;
     Message.content := ApiResponse.response data;
     Message.timestamp := now;
     Message.agent := ApiResponse.agent data;
     Message.image := None;
     Message.requiresValidation := ApiResponse.requires_validation data |}.

(** [errorMessage] of the [else] branch. *)
Definition errorMessage (uuid : jsstring) (now : Z) (data : ApiResponse.t)
  : Message.t :=
  {| Message.id := uuid;
     Message.role := assistant;
     Message.content :=
       mark ++ str " Error: "
         ++ or_default (ApiResponse.error data) (str "Failed to process request");
     Message.timestamp := now;
     Message.agent := Some (str "System");
     Message.image := None;
     Message.requiresValidation := None |}.

(** [errorMessage] of the [catch] block. *)
Definition connectMessage (uuid : jsstring) (now : Z) : Message.t :=
  {| Message.id := uuid;
     Message.role := assistant;
     Message.content :=
       mark ++ str " Failed to connect to the server. Please ensure the backend is running.";
     Message.timestamp := now;
     Message.agent := Some (str "System");
     Message.image := None;
     Message.requiresValidation := None |}.

(** [handleSendMessage] from its [await] on: the rest of the [try], the
    [catch] and the [finally]. *)
Definition afterFetch (uuid : jsstring) (now : Z) (o : FetchOutcome) (s : State)
  : State :=
  let s1 :=
    match o with
    | Body data =>
        if ApiResponse.success data
        then setMessages (fun prev => prev ++ [assistantMessage uuid now data]) s
        else setMessages (fun prev => prev ++ [errorMessage uuid now data]) s
    | Rejected | Unparsable =>
        setMessages (fun prev => prev ++ [connectMessage uuid now]) s
    end in
  setIsLoading false s1.

Definition jsstring_eqb (a b : jsstring) : bool :=
  if list_eq_dec N.eq_dec a b then true else false.

(** [handleKeyPress]. *)
Definition handleKeyPress (key : jsstring) (shiftKey : bool)
    (uuid : jsstring) (now : Z) (s : State) : State :=
  if jsstring_eqb key (str "Enter") && negb shiftKey
  then handleSendMessage uuid now s
  else s.

(** ** Events *)

(** An event runs its handler on whatever state it finds.  The page offers
    a control only while it is rendered and enabled, so the sessions of the
    page are among the sessions of [run]. *)
Inductive Event : Type :=
  | ChangeText (value : jsstring)
  | ClickAgent (i : nat)
  | ChangeFile (files : list File.t)   (* the file input's change event *)
  | LoadEnd (n : nat)
  | ClickRemove
  | ClickMic (busy : bool)
  | SpeechResult (event : SpeechRecognitionEvent)
  | SpeechError
  | SpeechEnd
  | ClickSend (uuid : jsstring) (now : Z)
  | KeyPress (key : jsstring) (shiftKey : bool) (uuid : jsstring) (now : Z)
  | Settle (uuid : jsstring) (now : Z) (o : FetchOutcome)
  | Sidebar (open : bool).

(** The value a file input shows once files are picked. *)
Definition fakepath (files : list File.t) : jsstring :=
  match files with
  | file :: _ => str "C:\fakepath\" ++ File.name file
  | [] => []
  end.

Definition step (s : State) (e : Event) : State :=
  match e with
  | ChangeText value => setInputText value s
  | ClickAgent i =>
      match nth_error AGENTS i with
      | Some a => setSelectedAgent (Agent.id a) s
      | None => s
      end
  | ChangeFile files => handleImageSelect files (setFileInputValue (fakepath files) s)
  | LoadEnd n => onloadend n s
  | ClickRemove => removeImage s
  | ClickMic busy => toggleVoiceInput busy s
  | SpeechResult event => onresult event s
  | SpeechError => onerror s
  | SpeechEnd => onend s
  | ClickSend uuid now => handleSendMessage uuid now s
  | KeyPress key shiftKey uuid now => handleKeyPress key shiftKey uuid now s
  | Settle uuid now o =>
      match inflight s with
      | S k => afterFetch uuid now o (setInflight k s)
      | O => s
      end
  | Sidebar open => setIsSidebarOpen open s
  end.

Definition run (s : State) (es : list Event) : State := fold_left step es s.

Definition is_settle (e : Event) : bool :=
  match e with
  | Settle _ _ _ => true
  | _ => false
  end.

(** ** Invariants of the session *)

(** The part of the state the submission pipeline owns is the same in
    [s'] as in [s]. *)
Definition same_pipeline (s s' : State) : Prop :=
  messages s' = messages s /\ isLoading s' = isLoading s
  /\ outbox s' = outbox s /\ inflight s' = inflight s.

(** The loading flag is up exactly while one request is awaited. *)
Definition one_at_a_time (s : State) : Prop :=
  inflight s = if isLoading s then 1%nat else 0%nat.

(** The log holds the welcome turn, a user turn per request sent and an
    assistant turn per request settled. *)
Definition balanced (s : State) : Prop :=
  (length (messages s) + inflight s = 1 + 2 * length (outbox s))%nat.

(** The log begins with the welcome turn, is that turn alone until a
    request is sent, and the first request sent carries it as its whole
    history. *)
Definition seeded (t0 : Z) (s : State) : Prop :=
  (exists rest, messages s = welcome t0 :: rest
                /\ (outbox s = [] -> rest = []))
  /\ (forall r rs, outbox s = r :: rs ->
        ChatRequest.history r = [historyEntry (welcome t0)])
  /\ (inflight s <= length (outbox s))%nat.

(** ** What the page shows *)

(** The agent the header looks up:
    [AGENTS.find(a => a.id === selectedAgent)]. *)
Definition headerAgent (s : State) : option Agent.t :=
  find (fun a => jsstring_eqb (Agent.id a) (selectedAgent s)) AGENTS.

(** The header's title, [headerAgent?.name || 'Chat']. *)
Definition headerName (s : State) : jsstring :=
  or_default (option_map Agent.name (headerAgent s)) (str "Chat").

(** The header's subtitle, [headerAgent?.description]. *)
Definition headerDescription (s : State) : option jsstring :=
  option_map Agent.description (headerAgent s).

(** The [disabled] attribute of the send button:
    [isLoading || (!inputText.trim() && !selectedImage)]. *)
Definition sendDisabled (s : State) : bool :=
  isLoading s
  || (negb (truthy (trim (inputText s)))
      && negb (match selectedImage s with Some _ => true | None => false end)).

(** ** Shapes of the log *)

Definition isUser (m : Message.t) : bool :=
  match Message.role m with
  | user => true
  | assistant => false
  end.

(** The roles of a log that holds the welcome turn, [n] settled exchanges
    and, when [awaited], the user turn of the exchange under way. *)
Definition exchanges (n : nat) (awaited : bool) : list Role :=
  assistant :: concat (repeat [user; assistant] n)
    ++ (if awaited then [user] else []).

(** A string that does not start with a blank. *)
Definition clean (s : jsstring) : Prop :=
  match s with
  | c :: _ => isWhiteSpace c = false
  | [] => True
  end.

(** The values of [uuidv4()] the events bring, in order. *)
Definition uuids_of (es : list Event) : list jsstring :=
  flat_map
    (fun e =>
       match e with
       | ClickSend uuid _ => [uuid]
       | KeyPress _ _ uuid _ => [uuid]
       | Settle uuid _ _ => [uuid]
       | _ => []
       end) es.

(** The ids [AGENTS] offers. *)
Definition agentIds : list jsstring := map Agent.id AGENTS.

(** ** A sample session *)

Module Sample.

(** A picked file whose read succeeds, and one whose read fails. *)
Definition scan : File.t :=
  File.mk (str "scan.png") (Some (str "data:image/png;base64,iVBORw0KGgo=")).

Definition torn : File.t := File.mk (str "torn.png") None.

Definition question : jsstring := str "  What are the symptoms of diabetes? ".

(** The session mounted at time 0 with a question typed. *)
Definition typed : State := step (init 0) (ChangeText question).

(** The same session once the question is sent. *)
Definition awaiting : State := step typed (ClickSend (str "u1") 1000).

(** What the user may try while the answer is awaited. *)
Definition meanwhile : list Event :=
  [ ChangeText (str "and of anaemia?");
    ClickSend (str "u2") 1500;
    KeyPress (str "Enter") false (str "u3") 1600;
    ClickAgent 1;
    ChangeFile [scan];
    LoadEnd 0 ].

Definition rateLimited : ApiResponse.t :=
  ApiResponse.mk false [] None (Some (str "rate limited")) None.

Definition answer : ApiResponse.t :=
  ApiResponse.mk true (str "**Polyuria**, thirst, fatigue.")
    (Some (str "Medical Chat")) None (Some true).

End Sample.

(** ** Lemmas on the JavaScript primitives *)

Lemma Array_slice_last (A : Type) (n : nat) (l : list A) :
  (0 < n)%nat ->
  Array_slice (- Z.of_nat n) l = skipn (length l - n) l.
Proof.
  intros Hn. unfold Array_slice.
  replace (- Z.of_nat n <? 0) with true by (symmetry; apply Z.ltb_lt; lia).
  f_equal. lia.
Qed.

Lemma Array_slice_suffix (A : Type) (n : nat) (l : list A) :
  (0 < n)%nat ->
  l = firstn (length l - n) l ++ Array_slice (- Z.of_nat n) l
  /\ length (Array_slice (- Z.of_nat n) l) = Nat.min n (length l).
Proof.
  intros Hn. rewrite Array_slice_last by exact Hn. split.
  - symmetry. apply firstn_skipn.
  - rewrite length_skipn. lia.
Qed.

Example toISOString_epoch :
  toISOString 0 = str "1970-01-01T00:00:00.000Z".
Proof. reflexivity. Qed.

Example toISOString_leap_day :
  toISOString 1709251199999 = str "2024-02-29T23:59:59.999Z".
Proof. reflexivity. Qed.

Example toISOString_before_epoch :
  toISOString (-1) = str "1969-12-31T23:59:59.999Z".
Proof. reflexivity. Qed.

Example trim_question :
  trim Sample.question = str "What are the symptoms of diabetes?".
Proof. reflexivity. Qed.

(** Tab, no-break space, line feed and ideographic space are all blank. *)
Example trim_blank : trim [9; 160; 10; 12288; 32]%N = [].
Proof. reflexivity. Qed.

Example Array_slice_long : Array_slice (-10) (seq 0 13) = seq 3 10.
Proof. reflexivity. Qed.

Example Array_slice_short : Array_slice (-10) (seq 0 3) = seq 0 3.
Proof. reflexivity. Qed.

Lemma truthy_false (a : jsstring) : truthy a = false <-> a = [].
Proof. destruct a; simpl; split; congruence. Qed.

Lemma truthy_true (a : jsstring) : truthy a = true <-> a <> [].
Proof. destruct a; simpl; split; congruence. Qed.

Lemma or_else_truthy (a b : jsstring) : a <> [] -> or_else a b = a.
Proof. intros H. unfold or_else. apply truthy_true in H. now rewrite H. Qed.

Lemma or_else_empty (b : jsstring) : or_else [] b = b.
Proof. reflexivity. Qed.

(** [historyEntry] keeps the role, the content and the agent of a turn and
    renders its timestamp. *)
Lemma historyEntry_fields (l : list Message.t) :
  Forall2
    (fun (h : HistoryEntry.t) (m : Message.t) =>
       HistoryEntry.role h = Message.role m
       /\ HistoryEntry.content h = Message.content m
       /\ HistoryEntry.timestamp h = toISOString (Message.timestamp m)
       /\ HistoryEntry.agent h = Message.agent m)
    (map historyEntry l) l.
Proof. induction l as [|m l IH]; simpl; constructor; auto. Qed.

(** ** Lemmas on the guard *)

Lemma blocked_loading (s : State) : isLoading s = true -> blocked s = true.
Proof. intros H. unfold blocked. rewrite H. apply orb_true_r. Qed.

Lemma blocked_blank (s : State) :
  trim (inputText s) = [] -> selectedImage s = None -> blocked s = true.
Proof. intros Ht Hi. unfold blocked. now rewrite Ht, Hi. Qed.

Lemma blocked_false (s : State) :
  blocked s = false ->
  isLoading s = false /\ (trim (inputText s) <> [] \/ selectedImage s <> None).
Proof.
  unfold blocked. intros H.
  apply orb_false_iff in H. destruct H as [H Hl]. split; [exact Hl|].
  apply andb_false_iff in H. destruct H as [H | H].
  - left. apply truthy_true. now destruct (truthy (trim (inputText s))).
  - right. now destruct (selectedImage s).
Qed.

Lemma handleSendMessage_blocked (uuid : jsstring) (now : Z) (s : State) :
  blocked s = true -> handleSendMessage uuid now s = s.
Proof. intros H. unfold handleSendMessage. now rewrite H. Qed.

Lemma handleSendMessage_passes (uuid : jsstring) (now : Z) (s : State) :
  blocked s = false ->
  handleSendMessage uuid now s =
    mkState (messages s ++ [userMessage uuid now s]) [] (selectedAgent s) true
      None None (isSidebarOpen s) (isListening s) [] (readers s)
      (outbox s ++ [requestBody uuid now s]) (S (inflight s)).
Proof. intros H. unfold handleSendMessage. now rewrite H. Qed.

Lemma handleKeyPress_cases (key : jsstring) (shiftKey : bool)
    (uuid : jsstring) (now : Z) (s : State) :
  handleKeyPress key shiftKey uuid now s = s
  \/ handleKeyPress key shiftKey uuid now s = handleSendMessage uuid now s.
Proof.
  unfold handleKeyPress.
  destruct (jsstring_eqb key (str "Enter") && negb shiftKey); auto.
Qed.

Lemma afterFetch_messages (uuid : jsstring) (now : Z) (o : FetchOutcome) (s : State) :
  exists m,
    afterFetch uuid now o s =
      mkState (messages s ++ [m]) (inputText s) (selectedAgent s) false
        (selectedImage s) (imagePreview s) (isSidebarOpen s) (isListening s)
        (fileInputValue s) (readers s) (outbox s) (inflight s)
    /\ m = match o with
           | Body data =>
               if ApiResponse.success data then assistantMessage uuid now data
               else errorMessage uuid now data
           | Rejected | Unparsable => connectMessage uuid now
           end.
Proof.
  destruct o as [| |data]; unfold afterFetch;
    [| |destruct (ApiResponse.success data)]; eexists; split; reflexivity.
Qed.

(** ** What an event can do to the pipeline *)

(** An event leaves the pipeline's part of the state alone, or runs
    [handleSendMessage], or is the settlement of an awaited request. *)
Lemma step_cases (s : State) (e : Event) :
  same_pipeline s (step s e)
  \/ (is_settle e = false
      /\ exists uuid now, step s e = handleSendMessage uuid now s)
  \/ (is_settle e = true
      /\ exists uuid now o k,
           inflight s = S k
           /\ step s e = afterFetch uuid now o (setInflight k s)).
Proof.
  assert (Hsame : same_pipeline s s) by (repeat split).
  destruct e; simpl; try (left; repeat split; fail).
  - left. destruct (nth_error AGENTS i); repeat split.
  - left. destruct files; repeat split.
  - left. unfold onloadend. destruct (nth_error (readers s) n); repeat split.
  - left. unfold toggleVoiceInput. destruct (isListening s), busy; repeat split.
  - left. unfold onresult. destruct event as [|[|t l] r]; repeat split.
  - right. left. split; [reflexivity|]. now exists uuid, now.
  - destruct (handleKeyPress_cases key shiftKey uuid now s) as [-> | ->].
    + now left.
    + right. left. split; [reflexivity|]. now exists uuid, now.
  - destruct (inflight s) as [|k] eqn:Ek.
    + now left.
    + right. right. split; [reflexivity|]. now exists uuid, now, o, k.
Qed.

(** While a request is awaited, nothing but its settlement touches the log,
    the loading flag or the requests sent. *)
Lemma step_while_loading (s : State) (e : Event) :
  isLoading s = true -> is_settle e = false ->
  isLoading (step s e) = true
  /\ messages (step s e) = messages s
  /\ outbox (step s e) = outbox s
  /\ inflight (step s e) = inflight s.
Proof.
  intros Hl He.
  destruct (step_cases s e)
    as [(Hm & Hf & Ho & Hi) | [(_ & uuid & now & ->) | (Hs & _)]].
  - repeat split; congruence.
  - rewrite handleSendMessage_blocked by (apply blocked_loading, Hl). auto.
  - congruence.
Qed.

Lemma run_while_loading (es : list Event) (s : State) :
  isLoading s = true -> forallb (fun e => negb (is_settle e)) es = true ->
  isLoading (run s es) = true
  /\ messages (run s es) = messages s
  /\ outbox (run s es) = outbox s
  /\ inflight (run s es) = inflight s.
Proof.
  revert s. induction es as [|e es IH]; intros s Hl Hes; simpl in *.
  - auto.
  - apply andb_true_iff in Hes. destruct Hes as [He Hes].
    apply negb_true_iff in He.
    destruct (step_while_loading s e Hl He) as (H1 & H2 & H3 & H4).
    destruct (IH (step s e) H1 Hes) as (J1 & J2 & J3 & J4).
    repeat split; congruence.
Qed.

(** A property of the pipeline's part of the state that the first render
    establishes and that submissions and settlements keep holds all along
    the session. *)
Section Invariant.

Variable P : State -> Prop.

Hypothesis P_pipeline :
  forall s s', same_pipeline s s' -> P s -> P s'.
Hypothesis P_send :
  forall uuid now s, blocked s = false -> P s ->
    P (handleSendMessage uuid now s).
Hypothesis P_settle :
  forall uuid now o k s, inflight s = S k -> P s ->
    P (afterFetch uuid now o (setInflight k s)).

Lemma invariant_step (s : State) (e : Event) : P s -> P (step s e).
Proof.
  intros Hs.
  destruct (step_cases s e)
    as [Hsame | [(_ & uuid & now & ->) | (_ & uuid & now & o & k & Hk & ->)]].
  - exact (P_pipeline s _ Hsame Hs).
  - destruct (blocked s) eqn:Hb.
    + now rewrite handleSendMessage_blocked.
    + now apply P_send.
  - now apply P_settle.
Qed.

Lemma invariant_run (es : list Event) (s : State) : P s -> P (run s es).
Proof.
  revert s. induction es as [|e es IH]; intros s Hs; simpl.
  - exact Hs.
  - apply IH, invariant_step, Hs.
Qed.

End Invariant.

(** ** One request at a time *)

Lemma one_at_a_time_run (t0 : Z) (es : list Event) :
  one_at_a_time (run (init t0) es).
Proof.
  apply invariant_run; unfold one_at_a_time.
  - intros s s' (_ & Hl & _ & Hi) Hs. now rewrite Hi, Hl.
  - intros uuid now s Hb Hs.
    rewrite (handleSendMessage_passes uuid now s Hb).
    destruct (blocked_false s Hb) as [Hl _]. simpl. now rewrite Hs, Hl.
  - intros uuid now o k s Hk Hs.
    destruct (afterFetch_messages uuid now o (setInflight k s)) as (m & -> & _).
    simpl. rewrite Hk in Hs. destruct (isLoading s); congruence.
  - reflexivity.
Qed.

(** Over a whole session: with [n] requests sent, the log has [2 * n + 1]
    turns when none is awaited and [2 * n] when the last one is. *)
Lemma balanced_run (t0 : Z) (es : list Event) :
  balanced (run (init t0) es).
Proof.
  apply invariant_run; unfold balanced.
  - intros s s' (Hm & _ & Ho & Hi) Hs. now rewrite Hm, Ho, Hi.
  - intros uuid now s Hb Hs.
    rewrite (handleSendMessage_passes uuid now s Hb).
    simpl. rewrite !length_app. simpl. lia.
  - intros uuid now o k s Hk Hs.
    destruct (afterFetch_messages uuid now o (setInflight k s)) as (m & -> & _).
    simpl. rewrite length_app. simpl. lia.
  - reflexivity.
Qed.

(** ** The submission pipeline *)

(** C1.  A submission that passes the guard appends exactly one user turn
    when it is made; whatever happens while the request is awaited leaves
    the log alone; and the settlement, in each of its branches, appends
    exactly one assistant turn.  The log after settlement is the log before
    the submission followed by these two turns, so it is longer by 2. *)
Theorem C1_settled_exchange_adds_two_turns
    (s : State) (uuid : jsstring) (now : Z) (mid : list Event)
    (uuid' : jsstring) (now' : Z) (o : FetchOutcome) :
  blocked s = false ->
  forallb (fun e => negb (is_settle e)) mid = true ->
  let s1 := step s (ClickSend uuid now) in
  let s2 := run s1 mid in
  let s3 := step s2 (Settle uuid' now' o) in
  (exists u, messages s1 = messages s ++ [u] /\ Message.role u = user)
  /\ messages s2 = messages s1
  /\ (exists a, messages s3 = messages s2 ++ [a] /\ Message.role a = assistant)
  /\ length (messages s3) = (length (messages s) + 2)%nat.
Proof.
  intros Hb Hmid s1 s2 s3.
  assert (E1 : s1 = handleSendMessage uuid now s) by reflexivity.
  rewrite (handleSendMessage_passes uuid now s Hb) in E1.
  assert (L1 : isLoading s1 = true) by (rewrite E1; reflexivity).
  assert (M1 : messages s1 = messages s ++ [userMessage uuid now s])
    by (rewrite E1; reflexivity).
  assert (I1 : inflight s1 = S (inflight s)) by (rewrite E1; reflexivity).
  destruct (run_while_loading mid s1 L1 Hmid) as (_ & M2 & _ & I2).
  fold s2 in M2, I2.
  assert (M3 : exists a, messages s3 = messages s2 ++ [a]
                         /\ Message.role a = assistant).
  { unfold s3. simpl. rewrite I2, I1.
    destruct (afterFetch_messages uuid' now' o (setInflight (inflight s) s2))
      as (m & -> & Hm).
    exists m. split; [reflexivity|].
    subst m. destruct o as [| |data]; try reflexivity.
    destruct (ApiResponse.success data); reflexivity. }
  split; [exists (userMessage uuid now s); split; [exact M1|reflexivity]|].
  split; [exact M2|]. split; [exact M3|].
  destruct M3 as (a & -> & _). rewrite M2, M1.
  rewrite !length_app. simpl. lia.
Qed.

(** C2.  The [history] of the request a submission issues is the image,
    turn by turn and in the log's order, of a suffix of the log the handler
    closes over, that is, the log before the user turn of this submission
    is appended; the suffix holds the last 10 turns, or the whole log when
    it is shorter.  Each element carries the turn's role, its content, its
    timestamp as an ISO-8601 string, and its agent. *)
Theorem C2_history_is_last_ten_prior_turns
    (s : State) (uuid : jsstring) (now : Z) :
  blocked s = false ->
  let s1 := step s (ClickSend uuid now) in
  exists (r : ChatRequest.t) (u : Message.t) (older window : list Message.t),
    outbox s1 = outbox s ++ [r]
    /\ messages s1 = messages s ++ [u]
    /\ messages s = older ++ window
    /\ length window = Nat.min 10 (length (messages s))
    /\ (length (ChatRequest.history r) <= 10)%nat
    /\ Forall2
         (fun (h : HistoryEntry.t) (m : Message.t) =>
            HistoryEntry.role h = Message.role m
            /\ HistoryEntry.content h = Message.content m
            /\ HistoryEntry.timestamp h = toISOString (Message.timestamp m)
            /\ HistoryEntry.agent h = Message.agent m)
         (ChatRequest.history r) window.
Proof.
  intros Hb s1.
  assert (E1 : s1 = handleSendMessage uuid now s) by reflexivity.
  rewrite (handleSendMessage_passes uuid now s Hb) in E1.
  destruct (Array_slice_suffix _ 10 (messages s)) as [Hsplit Hlen]; [lia|].
  change (- Z.of_nat 10) with (-10) in Hsplit, Hlen.
  exists (requestBody uuid now s), (userMessage uuid now s),
    (firstn (length (messages s) - 10) (messages s)),
    (Array_slice (-10) (messages s)).
  rewrite E1. simpl.
  split; [reflexivity|]. split; [reflexivity|].
  split; [exact Hsplit|]. split; [exact Hlen|]. split.
  - rewrite length_map, Hlen. lia.
  - apply historyEntry_fields.
Qed.

(** C3.  When the trimmed draft text is empty and no file is selected, or
    when the loading flag is up, or when the session (any state reached
    from the first render) has a request in flight, submitting by the send
    button or by a key press returns the state it was given: the log, the
    draft and the list of requests sent are the same. *)
Theorem C3_blocked_submit_changes_nothing
    (s : State) (uuid : jsstring) (now : Z) :
  (trim (inputText s) = [] /\ selectedImage s = None)
  \/ isLoading s = true
  \/ ((exists t0 es, s = run (init t0) es) /\ inflight s <> O) ->
  step s (ClickSend uuid now) = s
  /\ (forall key shiftKey, step s (KeyPress key shiftKey uuid now) = s).
Proof.
  intros H.
  assert (Hb : blocked s = true).
  { destruct H as [[Ht Hi] | [Hl | [(t0 & es & ->) Hin]]].
    - now apply blocked_blank.
    - now apply blocked_loading.
    - apply blocked_loading.
      pose proof (one_at_a_time_run t0 es) as Hone.
      unfold one_at_a_time in Hone.
      destruct (isLoading (run (init t0) es)); [reflexivity | congruence]. }
  split; [apply handleSendMessage_blocked, Hb|].
  intros key shiftKey. simpl.
  destruct (handleKeyPress_cases key shiftKey uuid now s) as [-> | ->];
    [reflexivity | apply handleSendMessage_blocked, Hb].
Qed.

(** C4.  When an awaited request settles, one assistant turn is appended
    and the loading flag falls, whatever the outcome.  The turn is: for a
    body with [success] true, the returned text with the returned agent
    and validation flag; for a body with [success] false, a System turn
    whose content contains the [error] string of the body (it is the
    error prefix followed by that string when the string is not empty), or
    the generic text when the body has no [error]; when [fetch] or
    [response.json()] rejects, the fixed System turn about the backend.
    Afterwards a draft with visible text can be submitted again. *)
Theorem C4_settlement_outcomes
    (s : State) (uuid : jsstring) (now : Z) (o : FetchOutcome) :
  inflight s <> O ->
  let s' := step s (Settle uuid now o) in
  isLoading s' = false
  /\ (forall v, trim v <> [] -> blocked (step s' (ChangeText v)) = false)
  /\ exists m,
       messages s' = messages s ++ [m]
       /\ Message.role m = assistant
       /\ match o with
          | Body data =>
              if ApiResponse.success data
              then Message.content m = ApiResponse.response data
                   /\ Message.agent m = ApiResponse.agent data
                   /\ Message.requiresValidation m
                      = ApiResponse.requires_validation data
              else Message.agent m = Some (str "System")
                   /\ match ApiResponse.error data with
                      | Some e =>
                          (exists pre post, Message.content m = pre ++ e ++ post)
                          /\ (e <> [] ->
                              Message.content m = mark ++ str " Error: " ++ e)
                      | None =>
                          Message.content m
                          = mark ++ str " Error: Failed to process request"
                      end
          | Rejected | Unparsable =>
              Message.agent m = Some (str "System")
              /\ Message.content m
                 = mark ++ str " Failed to connect to the server. Please ensure the backend is running."
          end.
Proof.
  intros Hin s'. unfold s'. simpl.
  destruct (inflight s) as [|k] eqn:Ek; [congruence|].
  destruct (afterFetch_messages uuid now o (setInflight k s)) as (m & -> & Hm).
  simpl. split; [reflexivity|]. split.
  - intros v Hv. unfold blocked. simpl.
    apply truthy_true in Hv. now rewrite Hv.
  - exists m. split; [reflexivity|]. subst m.
    destruct o as [| |data]; simpl; auto.
    destruct (ApiResponse.success data); simpl; auto.
    split; [reflexivity|]. split; [reflexivity|].
    destruct (ApiResponse.error data) as [e|]; simpl; [|reflexivity].
    split.
    + destruct e as [|c e]; simpl.
      * exists (mark ++ str " Error: Failed to process request"), [].
        reflexivity.
      * exists (mark ++ str " Error: "), []. rewrite app_nil_r. reflexivity.
    + intros He. rewrite or_else_truthy by exact He. reflexivity.
Qed.

(** C6.  A submission that passes the guard leaves the draft text empty,
    no file selected, no preview and an empty file input, while its
    request is still awaited, and keeps the selected agent.  A settlement,
    whatever its outcome and whenever it comes, changes neither the draft
    nor the selected agent. *)
Theorem C6_draft_cleared_agent_kept
    (s : State) (uuid : jsstring) (now : Z) :
  blocked s = false ->
  let s1 := step s (ClickSend uuid now) in
  (inputText s1 = [] /\ selectedImage s1 = None /\ imagePreview s1 = None
   /\ fileInputValue s1 = [])
  /\ (isLoading s1 = true /\ inflight s1 = S (inflight s))
  /\ selectedAgent s1 = selectedAgent s
  /\ (forall (s2 : State) (uuid' : jsstring) (now' : Z) (o : FetchOutcome),
        let s3 := step s2 (Settle uuid' now' o) in
        inputText s3 = inputText s2
        /\ selectedImage s3 = selectedImage s2
        /\ imagePreview s3 = imagePreview s2
        /\ fileInputValue s3 = fileInputValue s2
        /\ selectedAgent s3 = selectedAgent s2).
Proof.
  intros Hb s1. unfold s1. simpl.
  rewrite (handleSendMessage_passes uuid now s Hb). simpl.
  repeat (split; [tauto|]).
  intros s2 uuid' now' o. simpl.
  destruct (inflight s2) as [|k]; [tauto|].
  destruct (afterFetch_messages uuid' now' o (setInflight k s2)) as (m & -> & _).
  simpl. tauto.
Qed.

(** C7.  The request a submission issues has for [message] the trimmed
    draft text when that is not empty; when it is empty, a file is selected
    (the guard was passed) and [message] is the literal
    "Analyze this image". *)
Theorem C7_message_field
    (s : State) (uuid : jsstring) (now : Z) :
  blocked s = false ->
  exists r : ChatRequest.t,
    outbox (step s (ClickSend uuid now)) = outbox s ++ [r]
    /\ (trim (inputText s) <> [] ->
        ChatRequest.message r = trim (inputText s))
    /\ (trim (inputText s) = [] ->
        selectedImage s <> None
        /\ ChatRequest.message r = str "Analyze this image").
Proof.
  intros Hb. simpl. rewrite (handleSendMessage_passes uuid now s Hb). simpl.
  exists (requestBody uuid now s). split; [reflexivity|]. split.
  - intros Ht. simpl. now rewrite or_else_truthy.
  - intros Ht. simpl. rewrite Ht. split; [|reflexivity].
    destruct (blocked_false s Hb) as [_ [H | H]]; [congruence | exact H].
Qed.

(** ** Voice capture *)

(** C8.  A result event whose first alternative of its first result is
    [transcript] makes the draft text exactly [transcript], whatever it was,
    and ends listening; an error or an end event ends listening and leaves
    the draft text as it was. *)
Theorem C8_voice_transcript_replaces_draft
    (s : State) (transcript : jsstring) (alternatives : list jsstring)
    (results : list (list jsstring)) :
  (let s' := step s (SpeechResult ((transcript :: alternatives) :: results)) in
   inputText s' = transcript /\ isListening s' = false)
  /\ (let s' := step s SpeechError in
      inputText s' = inputText s /\ isListening s' = false)
  /\ (let s' := step s SpeechEnd in
      inputText s' = inputText s /\ isListening s' = false).
Proof. simpl. repeat split. Qed.

(** ** Image attachment *)

Lemma nth_error_middle (A : Type) (l r : list A) (x : A) :
  nth_error (l ++ x :: r) (length l) = Some x.
Proof. induction l as [|a l IH]; simpl; auto. Qed.

Lemma remove_nth_middle (A : Type) (l r : list A) (x : A) :
  remove_nth (length l) (l ++ x :: r) = l ++ r.
Proof.
  unfold remove_nth. induction l as [|a l IH]; simpl.
  - reflexivity.
  - simpl in IH. now rewrite IH.
Qed.

(** The [onloadend] of the reader that stands right after the readers [l]. *)
Lemma onloadend_middle (s : State) (l r : list File.t) (file : File.t) :
  readers s = l ++ file :: r ->
  onloadend (length l) s =
    setImagePreview (File.dataURL file) (setReaders (l ++ r) s).
Proof.
  intros H. unfold onloadend.
  now rewrite H, nth_error_middle, remove_nth_middle.
Qed.

(** Picking file A and then file B, with the reads ending in the order the
    files were picked (A's before or after B is picked), leaves B as the
    selected file and B's data URL as the preview.  Removing the attachment
    then leaves no selected file and no preview, and empties the file
    input, which held B's path. *)
Lemma second_image_replaces_first_in_order
    (s : State) (A B : File.t) (moreA moreB : list File.t) :
  let k := length (readers s) in
  let attached (s' : State) :=
    selectedImage s' = Some B
    /\ imagePreview s' = File.dataURL B
    /\ fileInputValue s' = str "C:\fakepath\" ++ File.name B
    /\ readers s' = readers s in
  let removed (s' : State) :=
    selectedImage s' = None
    /\ imagePreview s' = None
    /\ fileInputValue s' = [] in
  let s1 := run s [ChangeFile (A :: moreA); LoadEnd k;
                   ChangeFile (B :: moreB); LoadEnd k] in
  let s2 := run s [ChangeFile (A :: moreA); ChangeFile (B :: moreB);
                   LoadEnd k; LoadEnd k] in
  attached s1 /\ removed (step s1 ClickRemove)
  /\ attached s2 /\ removed (step s2 ClickRemove).
Proof.
  intros k attached removed s1 s2.
  pose (sa := step s (ChangeFile (A :: moreA))).
  assert (H1 : attached s1).
  { pose (sa' := step sa (LoadEnd k)).
    pose (sb := step sa' (ChangeFile (B :: moreB))).
    assert (Ea : sa' = setImagePreview (File.dataURL A)
                         (setReaders (readers s ++ []) sa))
      by (apply (onloadend_middle sa (readers s) [] A); reflexivity).
    assert (Eb : step sb (LoadEnd k)
                 = setImagePreview (File.dataURL B)
                     (setReaders (readers s ++ []) sb)).
    { apply (onloadend_middle sb (readers s) [] B).
      unfold sb. rewrite Ea. simpl. now rewrite app_nil_r. }
    change s1 with (step sb (LoadEnd k)). rewrite Eb.
    unfold attached. simpl. rewrite app_nil_r. repeat split. }
  assert (H2 : attached s2).
  { pose (sb := step sa (ChangeFile (B :: moreB))).
    pose (sb' := step sb (LoadEnd k)).
    assert (Ea : sb' = setImagePreview (File.dataURL A)
                         (setReaders (readers s ++ [B]) sb)).
    { apply (onloadend_middle sb (readers s) [B] A).
      simpl. now rewrite <- app_assoc. }
    assert (Eb : step sb' (LoadEnd k)
                 = setImagePreview (File.dataURL B)
                     (setReaders (readers s ++ []) sb')).
    { apply (onloadend_middle sb' (readers s) [] B). now rewrite Ea. }
    change s2 with (step sb' (LoadEnd k)). rewrite Eb.
    unfold attached. simpl. rewrite app_nil_r.
    repeat split; now rewrite Ea. }
  repeat split; try apply H1; try apply H2.
Qed.

(** C9.  Each reader's [onloadend] writes the preview, whichever file is
    selected by then.  When file A is picked, then file B, and the read of
    B ends before the read of A, the selected file is B while the preview,
    which is also what a request carries as [image], is the data URL of A:
    an image-only submission made then sends A's data for B. *)
Theorem C9_late_read_keeps_first_preview :
  (forall (s : State) (A B : File.t) (moreA moreB : list File.t),
     let k := length (readers s) in
     let s' := run s [ChangeFile (A :: moreA); ChangeFile (B :: moreB);
                      LoadEnd (S k); LoadEnd k] in
     selectedImage s' = Some B
     /\ imagePreview s' = File.dataURL A
     /\ readers s' = readers s)
  /\ (let A := Sample.scan in
      let B := File.mk (str "xray.png")
                 (Some (str "data:image/png;base64,AAAA")) in
      let s' := run (init 0) [ChangeFile [A]; ChangeFile [B];
                              LoadEnd 1; LoadEnd 0] in
      selectedImage s' = Some B
      /\ imagePreview s' = File.dataURL A
      /\ imagePreview s' <> File.dataURL B
      /\ map ChatRequest.image
           (outbox (step s' (ClickSend (str "u1") 1000)))
         = [File.dataURL A]).
Proof.
  split.
  - intros s A B moreA moreB k s'.
    pose (sb := run s [ChangeFile (A :: moreA); ChangeFile (B :: moreB)]).
    pose (sb' := step sb (LoadEnd (S k))).
    assert (Eb : sb' = setImagePreview (File.dataURL B)
                         (setReaders ((readers s ++ [A]) ++ []) sb)).
    { unfold sb', k.
      replace (S (length (readers s))) with (length (readers s ++ [A]))
        by (rewrite length_app; simpl; lia).
      apply (onloadend_middle sb (readers s ++ [A]) [] B). reflexivity. }
    assert (Ea : step sb' (LoadEnd k)
                 = setImagePreview (File.dataURL A)
                     (setReaders (readers s ++ []) sb')).
    { apply (onloadend_middle sb' (readers s) [] A).
      rewrite Eb. simpl. now rewrite app_nil_r. }
    change s' with (step sb' (LoadEnd k)). rewrite Ea. simpl.
    rewrite app_nil_r. repeat split. now rewrite Eb.
  - repeat split. discriminate.
Qed.

(** The ordering matters: a read of the first file that finishes after the
    read of the second leaves the first file's data URL as the preview. *)
Example late_read_of_first_file :
  let s := run (init 0) [ChangeFile [Sample.scan]; ChangeFile [Sample.torn];
                         LoadEnd 1; LoadEnd 0] in
  selectedImage s = Some Sample.torn
  /\ imagePreview s = File.dataURL Sample.scan.
Proof. split; reflexivity. Qed.

(** ** The seeded turn *)

Lemma seeded_run (t0 : Z) (es : list Event) :
  seeded t0 (run (init t0) es).
Proof.
  apply invariant_run; unfold seeded.
  - intros s s' (Hm & _ & Ho & Hi) Hs. now rewrite Hm, Ho, Hi.
  - intros uuid now s Hb ((rest & Hm & Hrest) & Hhd & Hin).
    rewrite (handleSendMessage_passes uuid now s Hb).
    repeat split; simpl.
    + exists (rest ++ [userMessage uuid now s]). rewrite Hm.
      split; [reflexivity|]. intros H. now destruct (outbox s).
    + intros r rs H. destruct (outbox s) as [|r0 rs0] eqn:Eo.
      * simpl in H. injection H as <- _.
        simpl. rewrite Hm, (Hrest eq_refl). reflexivity.
      * simpl in H. injection H as <- _. now apply (Hhd r0 rs0).
    + rewrite length_app. simpl. lia.
  - intros uuid now o k s Hk ((rest & Hm & Hrest) & Hhd & Hin).
    destruct (afterFetch_messages uuid now o (setInflight k s)) as (m & -> & _).
    repeat split; simpl.
    + exists (rest ++ [m]). rewrite Hm. split; [reflexivity|].
      intros H. rewrite H, Hk in Hin. simpl in Hin. lia.
    + exact Hhd.
    + lia.
  - repeat split; simpl; try lia.
    + exists []. auto.
    + discriminate.
Qed.


(** ** Image-only submissions *)

(** Once the read of the picked file has finished with a data URL, an
    image-only submission carries that data URL. *)
Lemma image_only_after_encoding
    (s : State) (file : File.t) (more : list File.t) (url : jsstring)
    (uuid : jsstring) (now : Z) :
  isLoading s = false -> trim (inputText s) = [] ->
  File.dataURL file = Some url ->
  let s1 := run s [ChangeFile (file :: more); LoadEnd (length (readers s))] in
  outbox (step s1 (ClickSend uuid now)) =
    outbox s ++
      [ {| ChatRequest.message := str "Analyze this image";
           ChatRequest.history :=
             map historyEntry (Array_slice (-10) (messages s));
           ChatRequest.image := Some url;
           ChatRequest.agent_type := selectedAgent s |} ].
Proof.
  intros Hl Ht Hurl s1.
  pose (s0 := step s (ChangeFile (file :: more))).
  assert (E1 : s1 = setImagePreview (File.dataURL file)
                      (setReaders (readers s ++ []) s0))
    by (apply (onloadend_middle s0 (readers s) [] file); reflexivity).
  assert (Hb : blocked s1 = false)
    by (rewrite E1; unfold blocked; simpl; now rewrite Ht, Hl).
  simpl. rewrite (handleSendMessage_passes uuid now s1 Hb).
  rewrite E1. unfold requestBody. simpl. now rewrite Ht, Hurl.
Qed.

(** C5.  The guard looks at the selected file, which [handleImageSelect]
    sets at once, and the request carries the preview, which only the
    reader's [onloadend] sets.  With a blank draft and a file just picked,
    the guard is passed and the request goes out asking to analyze an image
    while its [image] is [null]; the same happens after a read that
    failed. *)
Theorem C5_image_only_request_without_image :
  let picked := step (init 0) (ChangeFile [Sample.scan]) in
  let sent := step picked (ClickSend (str "u1") 1000) in
  let failed := run (init 0) [ChangeFile [Sample.torn]; LoadEnd 0] in
  (trim (inputText picked) = [] /\ selectedImage picked = Some Sample.scan
   /\ readers picked = [Sample.scan] /\ blocked picked = false)
  /\ outbox sent =
       [ {| ChatRequest.message := str "Analyze this image";
            ChatRequest.history := [historyEntry (welcome 0)];
            ChatRequest.image := None;
            ChatRequest.agent_type := str "auto" |} ]
  /\ (readers failed = [] /\ blocked failed = false
      /\ map ChatRequest.image
           (outbox (step failed (ClickSend (str "u1") 1000))) = [None]).
Proof. repeat split. Qed.

(** ** The theorems at the sample session *)

Lemma C1_sample_exchange :
  blocked Sample.typed = false
  /\ forallb (fun e => negb (is_settle e)) Sample.meanwhile = true
  /\ length (messages Sample.typed) = 1%nat
  /\ length (messages
       (step (run Sample.awaiting Sample.meanwhile)
          (Settle (str "u4") 2000 (Body Sample.answer)))) = 3%nat.
Proof.
  split; [reflexivity|]. split; [reflexivity|]. split; [reflexivity|].
  exact (proj2 (proj2 (proj2
    (C1_settled_exchange_adds_two_turns Sample.typed (str "u1") 1000
       Sample.meanwhile (str "u4") 2000 (Body Sample.answer)
       eq_refl eq_refl)))).
Defined.

Lemma C2_sample_history :
  blocked Sample.typed = false
  /\ exists (r : ChatRequest.t) (u : Message.t) (older window : list Message.t),
       outbox Sample.awaiting = outbox Sample.typed ++ [r]
       /\ messages Sample.awaiting = messages Sample.typed ++ [u]
       /\ messages Sample.typed = older ++ window
       /\ length window = Nat.min 10 (length (messages Sample.typed))
       /\ (length (ChatRequest.history r) <= 10)%nat
       /\ Forall2
            (fun (h : HistoryEntry.t) (m : Message.t) =>
               HistoryEntry.role h = Message.role m
               /\ HistoryEntry.content h = Message.content m
               /\ HistoryEntry.timestamp h = toISOString (Message.timestamp m)
               /\ HistoryEntry.agent h = Message.agent m)
            (ChatRequest.history r) window.
Proof.
  split; [reflexivity|].
  exact (C2_history_is_last_ten_prior_turns Sample.typed (str "u1") 1000 eq_refl).
Defined.

Lemma C3_sample_noop :
  (trim (inputText (init 0)) = [] /\ selectedImage (init 0) = None)
  /\ isLoading Sample.awaiting = true
  /\ inflight Sample.awaiting <> O
  /\ step (init 0) (ClickSend (str "u1") 1000) = init 0
  /\ step Sample.awaiting (ClickSend (str "u2") 1500) = Sample.awaiting
  /\ step Sample.awaiting (KeyPress (str "Enter") false (str "u3") 1600)
     = Sample.awaiting.
Proof.
  split; [split; reflexivity|]. split; [reflexivity|].
  split; [discriminate|]. split; [|split].
  - exact (proj1 (C3_blocked_submit_changes_nothing (init 0) (str "u1") 1000
                    (or_introl (conj eq_refl eq_refl)))).
  - exact (proj1 (C3_blocked_submit_changes_nothing Sample.awaiting (str "u2")
                    1500 (or_intror (or_introl eq_refl)))).
  - refine (proj2 (C3_blocked_submit_changes_nothing Sample.awaiting (str "u3")
                    1600 (or_intror (or_intror (conj _ _)))) _ _).
    + exists 0, [ChangeText Sample.question; ClickSend (str "u1") 1000].
      reflexivity.
    + discriminate.
Defined.

Lemma C4_sample_rate_limited :
  inflight Sample.awaiting <> O
  /\ exists m,
       messages
         (step Sample.awaiting (Settle (str "u4") 2000 (Body Sample.rateLimited)))
       = messages Sample.awaiting ++ [m]
       /\ Message.content m = mark ++ str " Error: rate limited".
Proof.
  split; [discriminate|].
  destruct (C4_settlement_outcomes Sample.awaiting (str "u4") 2000
              (Body Sample.rateLimited))
    as (_ & _ & m & Hm & _ & _ & _ & Hc); [discriminate|].
  exists m. split; [exact Hm | apply Hc; discriminate].
Defined.

Lemma C6_sample_cleared :
  blocked Sample.typed = false
  /\ inputText Sample.typed = Sample.question
  /\ inputText Sample.awaiting = []
  /\ selectedAgent Sample.awaiting = selectedAgent Sample.typed.
Proof.
  split; [reflexivity|]. split; [reflexivity|].
  pose proof (C6_draft_cleared_agent_kept Sample.typed (str "u1") 1000 eq_refl)
    as H.
  split; [exact (proj1 (proj1 H)) | exact (proj1 (proj2 (proj2 H)))].
Defined.

Lemma C7_sample_message :
  blocked Sample.typed = false
  /\ exists r : ChatRequest.t,
       outbox Sample.awaiting = outbox Sample.typed ++ [r]
       /\ (trim (inputText Sample.typed) <> [] ->
           ChatRequest.message r = trim (inputText Sample.typed))
       /\ (trim (inputText Sample.typed) = [] ->
           selectedImage Sample.typed <> None
           /\ ChatRequest.message r = str "Analyze this image").
Proof.
  split; [reflexivity|].
  exact (C7_message_field Sample.typed (str "u1") 1000 eq_refl).
Defined.

(** * Further properties of the session *)

(** ** The pipeline over a whole session *)

(** X1.  All along a session at most one request is awaited, the loading
    flag is up exactly while one is, and the log holds the welcome turn and
    two turns per request sent, less the assistant turn of the request
    still awaited. *)
Theorem session_one_request_at_a_time (t0 : Z) (es : list Event) :
  let s := run (init t0) es in
  (inflight s <= 1)%nat
  /\ (isLoading s = true <-> inflight s = 1%nat)
  /\ (inflight s <= length (outbox s))%nat
  /\ length (messages s)
     = (2 * length (outbox s) + (if isLoading s then 0 else 1))%nat.
Proof.
  intros s.
  pose proof (one_at_a_time_run t0 es) as H1.
  pose proof (balanced_run t0 es) as H2.
  destruct (seeded_run t0 es) as (_ & _ & H3).
  fold s in H1, H2, H3. unfold one_at_a_time in H1. unfold balanced in H2.
  clearbody s.
  destruct (isLoading s); rewrite H1 in *.
  - repeat split; lia.
  - repeat split; try lia; intros H; discriminate H.
Qed.

Lemma step_appends (s : State) (e : Event) :
  exists turns requests,
    messages (step s e) = messages s ++ turns
    /\ outbox (step s e) = outbox s ++ requests.
Proof.
  destruct (step_cases s e)
    as [(Hm & _ & Ho & _) | [(_ & uuid & now & ->)
                            | (_ & uuid & now & o & k & _ & ->)]].
  - exists [], []. now rewrite Hm, Ho, !app_nil_r.
  - destruct (blocked s) eqn:Hb.
    + rewrite handleSendMessage_blocked by exact Hb.
      exists [], []. now rewrite !app_nil_r.
    + rewrite (handleSendMessage_passes uuid now s Hb). simpl. eauto.
  - destruct (afterFetch_messages uuid now o (setInflight k s)) as (m & -> & _).
    simpl. exists [m], []. now rewrite app_nil_r.
Qed.

(** X2.  The log and the list of requests sent only grow at the end:
    whatever the events, from any state, the turns and the requests that
    were there are still there, in place and unchanged, followed by the new
    ones. *)
Theorem log_is_append_only (s : State) (es : list Event) :
  exists turns requests,
    messages (run s es) = messages s ++ turns
    /\ outbox (run s es) = outbox s ++ requests.
Proof.
  revert s. induction es as [|e es IH]; intros s; simpl.
  - exists [], []. now rewrite !app_nil_r.
  - destruct (step_appends s e) as (t1 & r1 & Hm1 & Ho1).
    destruct (IH (step s e)) as (t2 & r2 & Hm2 & Ho2).
    exists (t1 ++ t2), (r1 ++ r2).
    now rewrite Hm2, Ho2, Hm1, Ho1, !app_assoc.
Qed.

Lemma exchanges_send (n : nat) :
  exchanges n false ++ [user] = exchanges n true.
Proof. unfold exchanges. simpl. now rewrite app_nil_r. Qed.

Lemma exchanges_settle (n : nat) :
  exchanges n true ++ [assistant] = exchanges (S n) false.
Proof.
  unfold exchanges. simpl. f_equal.
  rewrite app_nil_r, <- app_assoc. simpl.
  change (user :: assistant :: concat (repeat [user; assistant] n))
    with (concat (repeat [user; assistant] (S n))).
  rewrite <- (app_nil_r [user; assistant]) at 2.
  change ([user; assistant] ++ []) with (concat [[user; assistant]]).
  rewrite <- concat_app. f_equal.
  symmetry. apply (repeat_cons n [user; assistant]).
Qed.

Lemma afterFetch_role (uuid : jsstring) (now : Z) (o : FetchOutcome) :
  Message.role
    match o with
    | Body data =>
        if ApiResponse.success data then assistantMessage uuid now data
        else errorMessage uuid now data
    | Rejected | Unparsable => connectMessage uuid now
    end = assistant.
Proof.
  destruct o as [| |data]; try reflexivity.
  destruct (ApiResponse.success data); reflexivity.
Qed.

(** The roles of the log, with the number of exchanges settled. *)
Lemma roles_run (t0 : Z) (es : list Event) :
  let s := run (init t0) es in
  one_at_a_time s
  /\ exists n,
       map Message.role (messages s) = exchanges n (isLoading s)
       /\ length (outbox s) = (n + inflight s)%nat.
Proof.
  apply invariant_run with
    (P := fun s => one_at_a_time s
                   /\ exists n,
                        map Message.role (messages s) = exchanges n (isLoading s)
                        /\ length (outbox s) = (n + inflight s)%nat);
    unfold one_at_a_time.
  - intros s s' (Hm & Hl & Ho & Hi) (H1 & n & Hr & Hn).
    rewrite Hm, Hl, Ho, Hi. eauto.
  - intros uuid now s Hb (H1 & n & Hr & Hn).
    rewrite (handleSendMessage_passes uuid now s Hb).
    destruct (blocked_false s Hb) as [Hl _]. rewrite Hl in *. simpl.
    split; [now rewrite H1|]. exists n.
    rewrite map_app, Hr, length_app. simpl.
    split; [apply exchanges_send | lia].
  - intros uuid now o k s Hk (H1 & n & Hr & Hn).
    destruct (afterFetch_messages uuid now o (setInflight k s)) as (m & -> & Hm).
    rewrite Hk in *. destruct (isLoading s); [|discriminate].
    injection H1 as ->. simpl. split; [reflexivity|]. exists (S n).
    rewrite map_app, Hr. simpl. subst m. rewrite afterFetch_role.
    split; [apply exchanges_settle | lia].
  - split; [reflexivity|]. exists O. split; reflexivity.
Qed.

(** X3.  The turns of the log alternate: after the welcome turn come the
    settled exchanges, each a user turn followed by an assistant turn, and
    then, exactly while a request is awaited, the user turn of the exchange
    under way.  The number of settled exchanges is the number of requests
    sent, less the one awaited. *)
Theorem log_roles_alternate (t0 : Z) (es : list Event) :
  let s := run (init t0) es in
  exists n,
    map Message.role (messages s)
    = assistant :: concat (repeat [user; assistant] n)
        ++ (if isLoading s then [user] else [])
    /\ length (outbox s) = (n + if isLoading s then 1 else 0)%nat.
Proof.
  intros s. destruct (roles_run t0 es) as (H1 & n & Hr & Hn).
  fold s in H1, Hr, Hn. exists n. split; [exact Hr|].
  now rewrite Hn, H1.
Qed.

(** A property of the pipeline's part of the state holds all along the
    session from [init t0] when the first render establishes it and the
    submissions and settlements of the session keep it. *)
Section Session.

Variable t0 : Z.
Variable P : State -> Prop.

Hypothesis P_init : P (init t0).
Hypothesis P_pipeline :
  forall s s', same_pipeline s s' -> P s -> P s'.
Hypothesis P_send :
  forall es uuid now, blocked (run (init t0) es) = false ->
    P (run (init t0) es) ->
    P (handleSendMessage uuid now (run (init t0) es)).
Hypothesis P_settle :
  forall es uuid now o k, inflight (run (init t0) es) = S k ->
    P (run (init t0) es) ->
    P (afterFetch uuid now o (setInflight k (run (init t0) es))).

Lemma session_invariant (es : list Event) : P (run (init t0) es).
Proof.
  induction es as [|e es IH] using rev_ind; [exact P_init|].
  unfold run in *. rewrite fold_left_app. simpl.
  fold (run (init t0) es) in *.
  destruct (step_cases (run (init t0) es) e)
    as [Hsame | [(_ & uuid & now & ->) | (_ & uuid & now & o & k & Hk & ->)]].
  - exact (P_pipeline _ _ Hsame IH).
  - destruct (blocked (run (init t0) es)) eqn:Hb.
    + now rewrite handleSendMessage_blocked.
    + now apply P_send.
  - now apply P_settle.
Qed.

End Session.

(** ** What the requests of a session carry *)

(** X4.  The request sent [k]-th in a session (counting from 0) is built
    when the log has [2 * k + 1] turns, so its [history] has
    [min 10 (2 * k + 1)] elements: 1, 3, 5, 7, 9 and then always 10.  It is
    never empty. *)
Theorem history_length_of_kth_request
    (t0 : Z) (es : list Event) (k : nat) (r : ChatRequest.t) :
  nth_error (outbox (run (init t0) es)) k = Some r ->
  length (ChatRequest.history r) = Nat.min 10 (2 * k + 1)
  /\ (1 <= length (ChatRequest.history r) <= 10)%nat.
Proof.
  intros H.
  enough (E : length (ChatRequest.history r) = Nat.min 10 (2 * k + 1))
    by (split; [exact E | lia]).
  revert k r H.
  apply (session_invariant t0
           (fun s => forall k r, nth_error (outbox s) k = Some r ->
              length (ChatRequest.history r) = Nat.min 10 (2 * k + 1))).
  - intros k r H. now destruct k.
  - intros s s' (_ & _ & Ho & _) Hs. now rewrite Ho.
  - intros es' uuid now Hb IH k r.
    rewrite (handleSendMessage_passes uuid now _ Hb). cbn -[Nat.min Nat.mul].
    destruct (Nat.lt_ge_cases k (length (outbox (run (init t0) es'))))
      as [Hk | Hk].
    + rewrite nth_error_app1 by exact Hk. apply IH.
    + rewrite nth_error_app2 by exact Hk.
      destruct (k - length (outbox (run (init t0) es')))%nat as [|j] eqn:Ej;
        [|now destruct j].
      cbn -[Nat.min Nat.mul]. intros [= <-].
      pose proof (one_at_a_time_run t0 es') as H1.
      pose proof (balanced_run t0 es') as H2.
      unfold one_at_a_time in H1. unfold balanced in H2.
      destruct (blocked_false _ Hb) as [Hl _]. rewrite Hl in H1.
      destruct (Array_slice_suffix _ 10 (messages (run (init t0) es')))
        as [_ Hlen]; [lia|].
      change (- Z.of_nat 10) with (-10) in Hlen.
      unfold requestBody. cbn -[Nat.min Nat.mul Array_slice].
      rewrite length_map, Hlen.
      assert (Ek : k = length (outbox (run (init t0) es'))) by lia.
      lia.
  - intros es' uuid now o j Hj IH k r.
    destruct (afterFetch_messages uuid now o (setInflight j (run (init t0) es')))
      as (m & -> & _).
    cbn -[Nat.min Nat.mul]. apply IH.
Qed.

(** X5.  The requests sent and the user turns of the log correspond one
    to one, in order: each request's [message] is the content of its user
    turn, and the turn shows the image the request carries (no image when
    the request's [image] is [null] or empty). *)
Theorem requests_match_user_turns (t0 : Z) (es : list Event) :
  let s := run (init t0) es in
  map ChatRequest.message (outbox s)
  = map Message.content (filter isUser (messages s))
  /\ map (fun r => or_undefined (ChatRequest.image r)) (outbox s)
     = map Message.image (filter isUser (messages s)).
Proof.
  apply invariant_run with
    (P := fun s =>
            map ChatRequest.message (outbox s)
            = map Message.content (filter isUser (messages s))
            /\ map (fun r => or_undefined (ChatRequest.image r)) (outbox s)
               = map Message.image (filter isUser (messages s))).
  - intros s s' (Hm & _ & Ho & _) Hs. now rewrite Hm, Ho.
  - intros uuid now s Hb [H1 H2].
    rewrite (handleSendMessage_passes uuid now s Hb). simpl.
    rewrite filter_app, !map_app, H1, H2. split; reflexivity.
  - intros uuid now o k s Hk [H1 H2].
    destruct (afterFetch_messages uuid now o (setInflight k s)) as (m & -> & Hm).
    simpl. rewrite filter_app. simpl.
    replace (isUser m) with false; [now rewrite app_nil_r|].
    unfold isUser. subst m. now rewrite afterFetch_role.
  - split; reflexivity.
Qed.

(** *** [trim] *)

Lemma trimStart_clean (s : jsstring) : clean (trimStart s).
Proof.
  induction s as [|c s IH]; simpl; [exact I|].
  destruct (isWhiteSpace c) eqn:Hc; [exact IH | exact Hc].
Qed.

Lemma trimStart_of_clean (s : jsstring) : clean s -> trimStart s = s.
Proof. destruct s as [|c s]; simpl; [reflexivity|]. now intros ->. Qed.

(** Stripping the front of a string that ends with a visible code unit
    keeps that end. *)
Lemma trimStart_snoc (l : jsstring) (c : N) :
  isWhiteSpace c = false -> exists l', trimStart (l ++ [c]) = l' ++ [c].
Proof.
  intros Hc. induction l as [|a l IH]; simpl.
  - exists []. now rewrite Hc.
  - destruct (isWhiteSpace a); [exact IH | now exists (a :: l)].
Qed.

Lemma trimEnd_clean (s : jsstring) : clean s -> clean (trimEnd s).
Proof.
  destruct s as [|c s]; [intros _; exact I|]. simpl. intros Hc.
  unfold trimEnd. simpl.
  destruct (trimStart_snoc (rev s) c Hc) as (l' & ->).
  rewrite rev_app_distr. simpl. exact Hc.
Qed.

Lemma trimEnd_idempotent (s : jsstring) : trimEnd (trimEnd s) = trimEnd s.
Proof.
  unfold trimEnd. rewrite rev_involutive.
  now rewrite (trimStart_of_clean _ (trimStart_clean (rev s))).
Qed.

Lemma trim_idempotent (s : jsstring) : trim (trim s) = trim s.
Proof.
  unfold trim.
  rewrite (trimStart_of_clean (trimEnd (trimStart s)))
    by apply trimEnd_clean, trimStart_clean.
  apply trimEnd_idempotent.
Qed.

(** What [userMessage.content] can be. *)
Lemma content_is_trimmed (text : jsstring) :
  let content := or_else (trim text) (str "Analyze this image") in
  content <> [] /\ trim content = content.
Proof.
  unfold or_else. destruct (trim text) as [|c l] eqn:Et; simpl truthy; cbv iota.
  - split; [discriminate | reflexivity].
  - split; [discriminate|]. rewrite <- Et. apply trim_idempotent.
Qed.

(** X6.  No request of a session has a blank [message]: each [message] is
    non-empty and is its own trimmed form, so it neither starts nor ends
    with white space. *)
Theorem request_messages_are_trimmed (t0 : Z) (es : list Event) :
  Forall
    (fun r => ChatRequest.message r <> []
              /\ trim (ChatRequest.message r) = ChatRequest.message r)
    (outbox (run (init t0) es)).
Proof.
  apply invariant_run with
    (P := fun s =>
            Forall
              (fun r => ChatRequest.message r <> []
                        /\ trim (ChatRequest.message r) = ChatRequest.message r)
              (outbox s)).
  - intros s s' (_ & _ & Ho & _) Hs. now rewrite Ho.
  - intros uuid now s Hb Hs.
    rewrite (handleSendMessage_passes uuid now s Hb). simpl.
    apply Forall_app. split; [exact Hs|].
    constructor; [|constructor].
    exact (content_is_trimmed (inputText s)).
  - intros uuid now o k s Hk Hs.
    destruct (afterFetch_messages uuid now o (setInflight k s)) as (m & -> & _).
    exact Hs.
  - constructor.
Qed.

(** X7.  In the log of a session a user turn names no agent and has no
    validation flag, and an assistant turn has no image: only the user's
    turns can show a picture, only the assistant's a label or the review
    badge. *)
Theorem turn_fields_follow_role (t0 : Z) (es : list Event) :
  Forall
    (fun m =>
       match Message.role m with
       | user => Message.agent m = None /\ Message.requiresValidation m = None
       | assistant => Message.image m = None
       end)
    (messages (run (init t0) es)).
Proof.
  apply invariant_run with
    (P := fun s =>
            Forall
              (fun m =>
                 match Message.role m with
                 | user => Message.agent m = None
                           /\ Message.requiresValidation m = None
                 | assistant => Message.image m = None
                 end)
              (messages s)).
  - intros s s' (Hm & _) Hs. now rewrite Hm.
  - intros uuid now s Hb Hs.
    rewrite (handleSendMessage_passes uuid now s Hb). simpl.
    apply Forall_app. split; [exact Hs|].
    constructor; [|constructor]. split; reflexivity.
  - intros uuid now o k s Hk Hs.
    destruct (afterFetch_messages uuid now o (setInflight k s)) as (m & -> & Hm).
    simpl. apply Forall_app. split; [exact Hs|].
    constructor; [|constructor]. subst m.
    destruct o as [| |data]; try reflexivity.
    destruct (ApiResponse.success data); reflexivity.
  - constructor; [reflexivity | constructor].
Qed.

(** ** The selected agent *)

Lemma agents_step (s : State) (e : Event) :
  In (selectedAgent s) agentIds
  /\ Forall (fun r => In (ChatRequest.agent_type r) agentIds) (outbox s) ->
  In (selectedAgent (step s e)) agentIds
  /\ Forall (fun r => In (ChatRequest.agent_type r) agentIds)
       (outbox (step s e)).
Proof.
  intros [Ha Ho].
  assert (Hsend : forall uuid now,
            In (selectedAgent (handleSendMessage uuid now s)) agentIds
            /\ Forall (fun r => In (ChatRequest.agent_type r) agentIds)
                 (outbox (handleSendMessage uuid now s))).
  { intros uuid now. destruct (blocked s) eqn:Hb.
    - rewrite handleSendMessage_blocked by exact Hb. now split.
    - rewrite (handleSendMessage_passes uuid now s Hb). simpl.
      split; [exact Ha|]. apply Forall_app. split; [exact Ho|].
      constructor; [exact Ha | constructor]. }
  destruct e; simpl; try (split; assumption); try apply Hsend.
  - destruct (nth_error AGENTS i) as [a|] eqn:Ei; [|now split].
    split; [|exact Ho].
    exact (in_map Agent.id AGENTS a (nth_error_In _ _ Ei)).
  - destruct files; now split.
  - unfold onloadend. destruct (nth_error (readers s) n); now split.
  - unfold toggleVoiceInput. destruct (isListening s), busy; now split.
  - unfold onresult. destruct event as [|[|t l] r]; now split.
  - destruct (handleKeyPress_cases key shiftKey uuid now s) as [-> | ->];
      [now split | apply Hsend].
  - destruct (inflight s) as [|k]; [now split|].
    destruct (afterFetch_messages uuid now o (setInflight k s)) as (m & -> & _).
    now split.
Qed.

Lemma agents_run (t0 : Z) (es : list Event) :
  In (selectedAgent (run (init t0) es)) agentIds
  /\ Forall (fun r => In (ChatRequest.agent_type r) agentIds)
       (outbox (run (init t0) es)).
Proof.
  induction es as [|e es IH] using rev_ind.
  - split; [left; reflexivity | constructor].
  - unfold run in *. rewrite fold_left_app. simpl. now apply agents_step.
Qed.

(** X8.  All along a session the selected agent is one of the four ids of
    [AGENTS], and so is the [agent_type] of every request sent: an index
    with no agent behind it selects nothing. *)
Theorem agent_type_is_a_known_id (t0 : Z) (es : list Event) :
  let known (a : jsstring) :=
    a = str "auto" \/ a = str "medical-chat"
    \/ a = str "prescription" \/ a = str "multi-agent" in
  known (selectedAgent (run (init t0) es))
  /\ Forall (fun r => known (ChatRequest.agent_type r))
       (outbox (run (init t0) es)).
Proof.
  intros known. destruct (agents_run t0 es) as [Ha Ho].
  assert (K : forall a, In a agentIds -> known a).
  { intros a H. unfold known. simpl in H.
    destruct H as [<- | [<- | [<- | [<- | []]]]]; auto. }
  split; [apply K, Ha|].
  revert Ho. apply Forall_impl. intros r. apply K.
Qed.

(** X9.  All along a session the header finds the selected agent in
    [AGENTS]: its title is that agent's name, never the fallback "Chat",
    and its subtitle is that agent's description. *)
Theorem header_shows_selected_agent (t0 : Z) (es : list Event) :
  let s := run (init t0) es in
  exists a,
    In a AGENTS
    /\ Agent.id a = selectedAgent s
    /\ headerName s = Agent.name a
    /\ headerName s <> str "Chat"
    /\ headerDescription s = Some (Agent.description a).
Proof.
  intros s. destruct (agents_run t0 es) as [Ha _]. fold s in Ha.
  unfold headerName, headerDescription, headerAgent.
  simpl in Ha. destruct Ha as [<- | [<- | [<- | [<- | []]]]].
  - exists (nth 0 AGENTS (Agent.mk [] [] [])).
    repeat split; try discriminate. simpl; auto.
  - exists (nth 1 AGENTS (Agent.mk [] [] [])).
    repeat split; try discriminate. simpl; auto.
  - exists (nth 2 AGENTS (Agent.mk [] [] [])).
    repeat split; try discriminate. simpl; auto.
  - exists (nth 3 AGENTS (Agent.mk [] [] [])).
    repeat split; try discriminate. simpl; auto 6.
Qed.

(** ** The controls *)

(** X10.  The send button is disabled exactly when [handleSendMessage]
    would return at its guard.  A click on the disabled button changes
    nothing; a click on the enabled button logs one user turn, sends one
    request, raises the loading flag and leaves the button disabled. *)
Theorem send_button_matches_guard (s : State) (uuid : jsstring) (now : Z) :
  sendDisabled s = blocked s
  /\ (sendDisabled s = true -> step s (ClickSend uuid now) = s)
  /\ (sendDisabled s = false ->
      let s1 := step s (ClickSend uuid now) in
      (exists u, messages s1 = messages s ++ [u])
      /\ (exists r, outbox s1 = outbox s ++ [r])
      /\ isLoading s1 = true
      /\ sendDisabled s1 = true).
Proof.
  assert (E : sendDisabled s = blocked s) by apply orb_comm.
  split; [exact E|]. rewrite E. split.
  - intros Hb. apply handleSendMessage_blocked, Hb.
  - intros Hb. simpl. rewrite (handleSendMessage_passes uuid now s Hb).
    simpl. repeat split; eauto.
Qed.

(** ** Reads that outlive their attachment *)

(** X12.  Nothing cancels a read once it is started.  When the attachment
    is removed, by the remove button or by a submission, while the picked
    file is still being read, the end of the read makes the file's data URL
    the preview again although no file is selected. *)
Theorem pending_read_outlives_removal
    (s : State) (file : File.t) (more : list File.t)
    (uuid : jsstring) (now : Z) :
  isLoading s = false ->
  let k := length (readers s) in
  let picked := step s (ChangeFile (file :: more)) in
  let removed := run picked [ClickRemove; LoadEnd k] in
  let sent := run picked [ClickSend uuid now; LoadEnd k] in
  (selectedImage (step picked ClickRemove) = None
   /\ imagePreview (step picked ClickRemove) = None
   /\ selectedImage removed = None
   /\ imagePreview removed = File.dataURL file)
  /\ (selectedImage (step picked (ClickSend uuid now)) = None
      /\ imagePreview (step picked (ClickSend uuid now)) = None
      /\ selectedImage sent = None
      /\ imagePreview sent = File.dataURL file).
Proof.
  intros Hl k picked removed sent. split.
  - assert (E : removed
                = setImagePreview (File.dataURL file)
                    (setReaders (readers s ++ []) (step picked ClickRemove)))
      by (apply (onloadend_middle _ (readers s) [] file); reflexivity).
    rewrite E. repeat split.
  - assert (Hb : blocked picked = false)
      by (unfold blocked; simpl; rewrite Hl, andb_false_r; reflexivity).
    assert (E1 : step picked (ClickSend uuid now)
                 = handleSendMessage uuid now picked) by reflexivity.
    rewrite (handleSendMessage_passes uuid now picked Hb) in E1.
    assert (E : sent
                = setImagePreview (File.dataURL file)
                    (setReaders (readers s ++ [])
                       (step picked (ClickSend uuid now)))).
    { apply (onloadend_middle _ (readers s) [] file). now rewrite E1. }
    rewrite E, E1. repeat split.
Qed.

(** ** Identifiers *)

Lemma step_ids (s : State) (e : Event) (es : list Event) :
  (map Message.id (messages (step s e)) = map Message.id (messages s)
   /\ exists l, uuids_of (e :: es) = l ++ uuids_of es /\ (length l <= 1)%nat)
  \/ (exists u, uuids_of (e :: es) = u :: uuids_of es
                /\ map Message.id (messages (step s e))
                   = map Message.id (messages s) ++ [u]).
Proof.
  assert (Hsend : forall uuid now,
            (map Message.id (messages (handleSendMessage uuid now s))
             = map Message.id (messages s))
            \/ map Message.id (messages (handleSendMessage uuid now s))
               = map Message.id (messages s) ++ [uuid]).
  { intros uuid now. destruct (blocked s) eqn:Hb.
    - left. now rewrite handleSendMessage_blocked.
    - right. rewrite (handleSendMessage_passes uuid now s Hb). simpl.
      now rewrite map_app. }
  destruct e; simpl;
    try (left; split; [reflexivity | exists []; split; [reflexivity|simpl; lia]]).
  - left. destruct (nth_error AGENTS i);
      (split; [reflexivity | exists []; split; [reflexivity|simpl; lia]]).
  - left. destruct files;
      (split; [reflexivity | exists []; split; [reflexivity|simpl; lia]]).
  - left. unfold onloadend. destruct (nth_error (readers s) n);
      (split; [reflexivity | exists []; split; [reflexivity|simpl; lia]]).
  - left. unfold toggleVoiceInput. destruct (isListening s), busy;
      (split; [reflexivity | exists []; split; [reflexivity|simpl; lia]]).
  - left. unfold onresult. destruct event as [|[|t l] r];
      (split; [reflexivity | exists []; split; [reflexivity|simpl; lia]]).
  - destruct (Hsend uuid now) as [H | H].
    + left. split; [exact H | exists [uuid]; split; [reflexivity|simpl; lia]].
    + right. exists uuid. split; [reflexivity | exact H].
  - destruct (handleKeyPress_cases key shiftKey uuid now s) as [-> | ->];
      [left; split; [reflexivity | exists [uuid]; split; [reflexivity|simpl; lia]]|].
    destruct (Hsend uuid now) as [H | H].
    + left. split; [exact H | exists [uuid]; split; [reflexivity|simpl; lia]].
    + right. exists uuid. split; [reflexivity | exact H].
  - destruct (inflight s) as [|k].
    + left. split; [reflexivity | exists [uuid]; split; [reflexivity|simpl; lia]].
    + right. exists uuid. split; [reflexivity|].
      destruct (afterFetch_messages uuid now o (setInflight k s))
        as (m & -> & Hm).
      simpl. rewrite map_app. simpl. subst m.
      destruct o as [| |data]; try reflexivity.
      destruct (ApiResponse.success data); reflexivity.
Qed.

(** X13.  When the values [uuidv4()] returns are all different from one
    another and from the ids already in the log, no two turns of the log
    ever share an id. *)
Theorem turn_ids_are_unique (s : State) (es : list Event) :
  NoDup (map Message.id (messages s) ++ uuids_of es) ->
  NoDup (map Message.id (messages (run s es))).
Proof.
  revert s. induction es as [|e es IH]; intros s H.
  - simpl in *. now rewrite app_nil_r in H.
  - simpl. apply IH.
    destruct (step_ids s e es) as [(Em & l & Eu & Hl) | (u & Eu & Em)];
      rewrite Em; rewrite Eu in H.
    + destruct l as [|u [|v l]]; simpl in Hl; [exact H| |lia].
      exact (NoDup_remove_1 _ _ _ H).
    + now rewrite <- app_assoc.
Qed.

(** ** The history a request carries, read off the log *)

Lemma firstn_snoc_short (A : Type) (n : nat) (l : list A) (x : A) :
  (n <= length l)%nat -> firstn n (l ++ [x]) = firstn n l.
Proof.
  intros H. rewrite firstn_app.
  replace (n - length l)%nat with O by lia.
  simpl. apply app_nil_r.
Qed.

(** X14.  What a request carried as [history] can be read off the log at
    any later time: for the request sent [k]-th (counting from 0) it is the
    image of the last ten of the first [2 * k + 1] turns of the log.  From
    the second request on, it therefore ends with the assistant turn that
    settled the request before, error turns included. *)
Theorem history_is_read_off_the_log
    (t0 : Z) (es : list Event) (k : nat) (r : ChatRequest.t) :
  nth_error (outbox (run (init t0) es)) k = Some r ->
  ChatRequest.history r
  = map historyEntry
      (Array_slice (-10) (firstn (2 * k + 1) (messages (run (init t0) es)))).
Proof.
  revert k r.
  apply (session_invariant t0
           (fun s => forall k r, nth_error (outbox s) k = Some r ->
              ChatRequest.history r
              = map historyEntry
                  (Array_slice (-10) (firstn (2 * k + 1) (messages s))))).
  - intros k r H. now destruct k.
  - intros s s' (Hm & _ & Ho & _) Hs. now rewrite Hm, Ho.
  - intros es' uuid now Hb IH k r.
    pose proof (one_at_a_time_run t0 es') as H1.
    pose proof (balanced_run t0 es') as H2.
    unfold one_at_a_time in H1. unfold balanced in H2.
    destruct (blocked_false _ Hb) as [Hl _]. rewrite Hl in H1.
    rewrite (handleSendMessage_passes uuid now _ Hb).
    cbn [outbox messages].
    destruct (Nat.lt_ge_cases k (length (outbox (run (init t0) es'))))
      as [Hk | Hk].
    + rewrite nth_error_app1 by exact Hk. intros H.
      rewrite firstn_snoc_short by lia. now apply IH.
    + rewrite nth_error_app2 by exact Hk.
      destruct (k - length (outbox (run (init t0) es')))%nat as [|j] eqn:Ej;
        [|now destruct j].
      cbn [nth_error]. intros [= <-].
      assert (Ek : (2 * k + 1 = length (messages (run (init t0) es')))%nat)
        by lia.
      rewrite firstn_snoc_short by lia.
      rewrite Ek, firstn_all. reflexivity.
  - intros es' uuid now o j Hj IH k r H.
    pose proof (one_at_a_time_run t0 es') as H1.
    pose proof (balanced_run t0 es') as H2.
    unfold one_at_a_time in H1. unfold balanced in H2.
    destruct (afterFetch_messages uuid now o (setInflight j (run (init t0) es')))
      as (m & E & _).
    rewrite E in H |- *. cbn [outbox messages setInflight] in H |- *.
    assert (Hk : (k < length (outbox (run (init t0) es')))%nat)
      by (apply nth_error_Some; congruence).
    rewrite firstn_snoc_short
      by (destruct (isLoading (run (init t0) es')); lia).
    now apply IH.
Qed.

(** ** The further properties at the sample session *)

Lemma history_length_sample :
  nth_error (outbox Sample.awaiting) 0 = Some (requestBody (str "u1") 1000 Sample.typed)
  /\ length (ChatRequest.history (requestBody (str "u1") 1000 Sample.typed))
     = 1%nat.
Proof.
  split; [reflexivity|].
  exact (proj1 (history_length_of_kth_request 0
                  [ChangeText Sample.question; ClickSend (str "u1") 1000]
                  0 (requestBody (str "u1") 1000 Sample.typed) eq_refl)).
Defined.

Lemma pending_read_sample :
  isLoading Sample.typed = false
  /\ imagePreview
       (run (step Sample.typed (ChangeFile [Sample.scan]))
          [ClickSend (str "u1") 1000; LoadEnd (length (readers Sample.typed))])
     = File.dataURL Sample.scan.
Proof.
  split; [reflexivity|].
  exact (proj2 (proj2 (proj2 (proj2
    (pending_read_outlives_removal Sample.typed Sample.scan []
       (str "u1") 1000 eq_refl))))).
Defined.

Lemma turn_ids_sample :
  NoDup (map Message.id (messages Sample.typed)
           ++ uuids_of (ClickSend (str "u1") 1000 :: Sample.meanwhile
                          ++ [Settle (str "u4") 2000 (Body Sample.answer)]))
  /\ NoDup (map Message.id
              (messages
                 (run Sample.typed
                    (ClickSend (str "u1") 1000 :: Sample.meanwhile
                       ++ [Settle (str "u4") 2000 (Body Sample.answer)])))).
Proof.
  assert (H : NoDup (map Message.id (messages Sample.typed)
                       ++ uuids_of (ClickSend (str "u1") 1000 :: Sample.meanwhile
                                      ++ [Settle (str "u4") 2000 (Body Sample.answer)]))).
  { simpl. repeat constructor; simpl; intuition discriminate. }
  split; [exact H|].
  exact (turn_ids_are_unique Sample.typed _ H).
Defined.

Lemma history_sample :
  nth_error (outbox Sample.awaiting) 0 = Some (requestBody (str "u1") 1000 Sample.typed)
  /\ ChatRequest.history (requestBody (str "u1") 1000 Sample.typed)
     = [historyEntry (welcome 0)].
Proof.
  split; [reflexivity|].
  exact (history_is_read_off_the_log 0
           [ChangeText Sample.question; ClickSend (str "u1") 1000]
           0 (requestBody (str "u1") 1000 Sample.typed) eq_refl).
Defined.

Lemma send_button_sample :
  sendDisabled (init 0) = true
  /\ step (init 0) (ClickSend (str "u1") 1000) = init 0
  /\ sendDisabled Sample.typed = false
  /\ sendDisabled (step Sample.typed (ClickSend (str "u1") 1000)) = true.
Proof.
  split; [reflexivity|]. split; [|split; [reflexivity|]].
  - exact (proj1 (proj2 (send_button_matches_guard (init 0) (str "u1") 1000))
             eq_refl).
  - exact (proj2 (proj2 (proj2
      (proj2 (proj2 (send_button_matches_guard Sample.typed (str "u1") 1000))
         eq_refl)))).
Defined.
